(** * wgengine/router/dns_linux.go: DNS configuration through systemd-resolved

    A shallow embedding of [systemdIsActive], [systemdUpDNS] and
    [systemdDownDNS].  The three functions are straight-line Go code that
    talks to the outside world (the file system, the system D-Bus, the
    interface table); the embedding keeps that talk explicit: a function is
    a tree of requests, an environment answers the requests, and running a
    tree against an environment yields the returned value, the final
    environment state and the log of all requests with their answers. *)

From Stdlib Require Import ZArith Strings.Byte.
From stdpp Require Import base list strings.

Open Scope Z_scope.
Open Scope string_scope.
Open Scope list_scope.

(** ** Values that come from other packages *)

(** A Go array [[n]byte]: a byte list whose length is fixed by the type. *)
Record array (n : nat) : Type := Array {
  elems : list byte;
  elems_len : Nat.eqb (length elems) n = true
}.
Arguments elems {n} a.

(** [inet.af/netaddr.IP] as this file uses it: the zero value, an IPv4
    address of four bytes, or an IPv6 address of sixteen bytes with an
    optional zone. *)
Inductive IP : Type :=
| IPzero
| v4Addr (a : array 4)
| v6Addr (a : array 16)
| v6AddrZone (a : array 16) (zone : string).

(** [IP.Is4]: an address stored in four bytes.  An IPv6 address that maps
    an IPv4 one is not [Is4]. *)
Definition Is4 (ip : IP) : bool :=
  match ip with v4Addr _ => true | _ => false end.

(** [IP.Is6]. *)
Definition Is6 (ip : IP) : bool :=
  match ip with v6Addr _ | v6AddrZone _ _ => true | _ => false end.

(** [IP.As16]: the sixteen-byte form; an IPv4 address is placed behind the
    prefix ::ffff:0:0/96, a zone is dropped, the zero value is all zeroes. *)
Definition As16 (ip : IP) : list byte :=
  match ip with
  | IPzero => replicate 16 x00
  | v4Addr a => replicate 10 x00 ++ [xff; xff] ++ elems a
  | v6Addr a => elems a
  | v6AddrZone a _ => elems a
  end.

(** [golang.org/x/sys/unix] address families on Linux. *)
Definition AF_INET : Z := 2.
Definition AF_INET6 : Z := 10.

(** [net.Interface], reduced to the fields an interface is known by. *)
Record Interface : Type := { Index : Z; Name : string }.

(** An error value made by another package ([os], [net], [dbus],
    [context]).  [DeadlineExceeded] is [context.DeadlineExceeded], the
    error of a context whose deadline has passed. *)
Inductive lib_error : Type :=
| DeadlineExceeded
| LibError (msg : string).

(** [context.Context]: the background context, or one that ends a given
    number of nanoseconds after it was made. *)
Inductive Context : Type :=
| Background
| WithTimeout (parent : Context) (timeout : Z).

(** [time.Second], in nanoseconds as [time.Duration] counts. *)
Definition Second : Z := 1000000000.

(** [*dbus.Conn] and the [dbus.BusObject] that [Conn.Object] makes of a
    connection, a destination and an object path. *)
Record Conn : Type := { conn_id : Z }.
Record BusObject : Type := Object {
  obj_conn : Conn; obj_dest : string; obj_path : string
}.

(** ** The declarations of dns_linux.go *)

Definition systemdSetTimeout : Z := Second.

Definition systemdStubPaths : list string := [
  "/lib/systemd/resolv.conf";
  "/usr/lib/systemd/resolv.conf";
  "/run/systemd/resolve/stub-resolv.conf";
  "/var/run/systemd/resolve/stub-resolv.conf"
].

(** The errors the file returns: its two package-level values, and
    [fmt.Errorf(context + ": %w", cause)] around an error of another
    package. *)
Inductive error : Type :=
| errNotSystemd
| errNotReady
| Errorf (context : string) (cause : lib_error).

Definition lib_Error (e : lib_error) : string :=
  match e with
  | DeadlineExceeded => "context deadline exceeded"
  | LibError msg => msg
  end.

(** [error.Error] and [errors.Unwrap]. *)
Definition Error (e : error) : string :=
  match e with
  | errNotSystemd => "systemd-resolved is not in use"
  | errNotReady => "interface not ready"
  | Errorf context cause => context +:+ ": " +:+ lib_Error cause
  end.

Definition Unwrap (e : error) : option lib_error :=
  match e with Errorf _ cause => Some cause | _ => None end.

Record systemdLinkNameserver : Type := {
  Family : Z;
  Address : list byte
}.

Record systemdLinkDomain : Type := {
  Domain : string;
  RoutingOnly : bool
}.

(** ** Requests to the outside world *)

(** An argument of a D-Bus method call, by the Go type of the value. *)
Inductive arg : Type :=
| ArgInt (i : Z)
| ArgNameservers (l : list systemdLinkNameserver)
| ArgDomains (l : list systemdLinkDomain).

(** The calls the file makes into other packages, indexed by what Go hands
    back: [os.Readlink] a target and an error, [dbus.SystemBus] a
    connection and an error, [interfaces.Tailscale] an address, an
    interface pointer ([None] is nil) and an error, and
    [BusObject.CallWithContext] a call of which only [Err] is read. *)
Inductive request : Type → Type :=
| Readlink (name : string) : request (string * option lib_error)
| SystemBus : request (Conn * option lib_error)
| Tailscale : request (list byte * option Interface * option lib_error)
| CallWithContext (o : BusObject) (ctx : Context) (method : string)
    (flags : Z) (args : list arg) : request (option lib_error).

(** A function body: it returns, or makes a request and goes on with the
    answer. *)
Inductive prog (A : Type) : Type :=
| Ret (a : A)
| Do {X : Type} (r : request X) (k : X → prog A).
Arguments Ret {A} a.
Arguments Do {A X} r k.

Fixpoint bind {A B : Type} (p : prog A) (f : A → prog B) : prog B :=
  match p with
  | Ret a => f a
  | Do r k => Do r (λ x, bind (k x) f)
  end.

#[global] Instance prog_ret : MRet prog := @Ret.
#[global] Instance prog_bind : MBind prog := λ A B f p, bind p f.

Definition ask {X : Type} (r : request X) : prog X := Do r Ret.

(** ** The functions of dns_linux.go *)

(** The loop of [systemdIsActive] over [systemdStubPaths]: it returns true
    at the first path equal to [dst] and false when the paths run out. *)
Fixpoint isStubPath (dst : string) (paths : list string) : bool :=
  match paths with
  | [] => false
  | path :: paths' => if String.eqb dst path then true else isStubPath dst paths'
  end.

Definition systemdIsActive : prog bool :=
  '(dst, err) ← ask (Readlink "/etc/resolv.conf");
  match err with
  | Some _ => mret false
  | None => mret (isStubPath dst systemdStubPaths)
  end.

(** [make([]T, n)]: [n] zero values. *)
Definition make {T : Type} (zero : T) (n : nat) : list T := replicate n zero.

(** [for i, x := range xs { s = body i x s }], counting from [i]. *)
Fixpoint for_range {T St : Type} (body : nat → T → St → St)
    (i : nat) (xs : list T) (s : St) : St :=
  match xs with
  | [] => s
  | x :: xs' => for_range body (S i) xs' (body i x s)
  end.

(** Lines 111-125 of [systemdUpDNS].  The slice is made with the length of
    [servers] and written at the loop index, which is always inside it, so
    the assignment never goes out of range. *)
Definition linkNameservers (servers : list IP) : list systemdLinkNameserver :=
  for_range
    (λ i server s,
       let ip := As16 server in
       if Is4 server
       then <[i := {| Family := AF_INET; Address := drop 12 ip |}]> s
       else <[i := {| Family := AF_INET6; Address := ip |}]> s)
    0%nat servers
    (make {| Family := 0; Address := [] |} (length servers)).

(** Lines 135-141 of [systemdUpDNS]. *)
Definition linkDomains (domains : list string) : list systemdLinkDomain :=
  for_range
    (λ i domain s, <[i := {| Domain := domain; RoutingOnly := false |}]> s)
    0%nat domains
    (make {| Domain := ""; RoutingOnly := false |} (length domains)).

(** [systemdUpDNS] returns a Go [error]: [None] is nil.  The deferred
    [cancel] releases the context's timer and is not a request. *)
Definition systemdUpDNS (servers : list IP) (domains : list string)
    : prog (option error) :=
  let ctx := WithTimeout Background systemdSetTimeout in
  active ← systemdIsActive;
  if negb active then mret (Some errNotSystemd) else
  '(conn, err) ← ask SystemBus;
  match err with
  | Some err => mret (Some (Errorf "connecting to system bus" err))
  | None =>
  let resolved :=
    Object conn "org.freedesktop.resolve1" "/org/freedesktop/resolve1" in
  '(_, iface, err) ← ask Tailscale;
  match err with
  | Some err => mret (Some (Errorf "getting interface index" err))
  | None =>
  match iface with
  | None => mret (Some errNotReady)
  | Some iface =>
  call_Err ← ask (CallWithContext resolved ctx
    "org.freedesktop.resolve1.Manager.SetLinkDNS" 0
    [ArgInt (Index iface); ArgNameservers (linkNameservers servers)]);
  match call_Err with
  | Some err => mret (Some (Errorf "SetLinkDNS" err))
  | None =>
  call_Err ← ask (CallWithContext resolved ctx
    "org.freedesktop.resolve1.Manager.SetLinkDomains" 0
    [ArgInt (Index iface); ArgDomains (linkDomains domains)]);
  match call_Err with
  | Some err => mret (Some (Errorf "SetLinkDomains" err))
  | None => mret None
  end end end end end.

Definition systemdDownDNS : prog (option error) :=
  let ctx := WithTimeout Background systemdSetTimeout in
  active ← systemdIsActive;
  if negb active then mret (Some errNotSystemd) else
  '(conn, err) ← ask SystemBus;
  match err with
  | Some err => mret (Some (Errorf "connecting to system bus" err))
  | None =>
  let resolved :=
    Object conn "org.freedesktop.resolve1" "/org/freedesktop/resolve1" in
  '(_, iface, err) ← ask Tailscale;
  match err with
  | Some err => mret (Some (Errorf "getting interface index" err))
  | None =>
  match iface with
  | None => mret (Some errNotReady)
  | Some iface =>
  call_Err ← ask (CallWithContext resolved ctx
    "org.freedesktop.resolve1.Manager.RevertLink" 0 [ArgInt (Index iface)]);
  match call_Err with
  | Some err => mret (Some (Errorf "RevertLink" err))
  | None => mret None
  end end end end.

(** ** Running a function against an environment *)

(** What the outside world did: each request with its answer. *)
Inductive event : Type :=
| EvReadlink (name : string) (r : string * option lib_error)
| EvSystemBus (r : Conn * option lib_error)
| EvTailscale (r : list byte * option Interface * option lib_error)
| EvCall (o : BusObject) (ctx : Context) (method : string) (flags : Z)
    (args : list arg) (err : option lib_error).

Definition record {X : Type} (r : request X) : X → event :=
  match r in request X return X → event with
  | Readlink name => EvReadlink name
  | SystemBus => EvSystemBus
  | Tailscale => EvTailscale
  | CallWithContext o ctx method flags args => EvCall o ctx method flags args
  end.

(** The remote calls of a log, in the order they were issued. *)
Fixpoint calls (tr : list event) : list event :=
  match tr with
  | [] => []
  | EvCall o ctx method flags args err :: tr' =>
      EvCall o ctx method flags args err :: calls tr'
  | _ :: tr' => calls tr'
  end.

(** The log without its remote calls: the checks made before them. *)
Fixpoint checks (tr : list event) : list event :=
  match tr with
  | [] => []
  | EvCall _ _ _ _ _ _ :: tr' => checks tr'
  | e :: tr' => e :: checks tr'
  end.

(** An environment over a state [W].  Reading a symbolic link looks at the
    state and leaves it as it is; connecting to the bus, listing the
    interfaces and calling a remote method may each change it. *)
Record Env (W : Type) : Type := {
  env_readlink : string → W → string * option lib_error;
  env_system_bus : W → Conn * option lib_error * W;
  env_tailscale :
    W → list byte * option Interface * option lib_error * W;
  env_call :
    BusObject → Context → string → Z → list arg → W → option lib_error * W
}.
Arguments env_readlink {W} _ _ _.
Arguments env_system_bus {W} _ _.
Arguments env_tailscale {W} _ _.
Arguments env_call {W} _ _ _ _ _ _ _.

Definition answer {W X : Type} (E : Env W) (r : request X) (w : W) : X * W :=
  match r in request X return X * W with
  | Readlink name => (env_readlink E name w, w)
  | SystemBus => env_system_bus E w
  | Tailscale => env_tailscale E w
  | CallWithContext o ctx method flags args =>
      env_call E o ctx method flags args w
  end.

Record outcome (A W : Type) : Type := {
  result : A;
  final : W;
  trace : list event
}.
Arguments result {A W} _.
Arguments final {A W} _.
Arguments trace {A W} _.

Fixpoint run {W A : Type} (E : Env W) (p : prog A) (w : W) : outcome A W :=
  match p with
  | Ret a => {| result := a; final := w; trace := [] |}
  | Do r k =>
      let '(x, w') := answer E r w in
      let o := run E (k x) w' in
      {| result := result o; final := final o;
         trace := record r x :: trace o |}
  end.

(** ** Vocabulary for the statements *)

(** What one pass of the first loop of [systemdUpDNS] stores. *)
Definition nameserver_of (server : IP) : systemdLinkNameserver :=
  if Is4 server
  then {| Family := AF_INET; Address := drop 12 (As16 server) |}
  else {| Family := AF_INET6; Address := As16 server |}.

(** The three remote calls as they should appear in a log. *)
Definition SetLinkDNS_event (conn : Conn) (iface : Interface)
    (servers : list IP) (err : option lib_error) : event :=
  EvCall (Object conn "org.freedesktop.resolve1" "/org/freedesktop/resolve1")
    (WithTimeout Background systemdSetTimeout)
    "org.freedesktop.resolve1.Manager.SetLinkDNS" 0
    [ArgInt (Index iface); ArgNameservers (linkNameservers servers)] err.

Definition SetLinkDomains_event (conn : Conn) (iface : Interface)
    (domains : list string) (err : option lib_error) : event :=
  EvCall (Object conn "org.freedesktop.resolve1" "/org/freedesktop/resolve1")
    (WithTimeout Background systemdSetTimeout)
    "org.freedesktop.resolve1.Manager.SetLinkDomains" 0
    [ArgInt (Index iface); ArgDomains (linkDomains domains)] err.

Definition RevertLink_event (conn : Conn) (iface : Interface)
    (err : option lib_error) : event :=
  EvCall (Object conn "org.freedesktop.resolve1" "/org/freedesktop/resolve1")
    (WithTimeout Background systemdSetTimeout)
    "org.freedesktop.resolve1.Manager.RevertLink" 0
    [ArgInt (Index iface)] err.

(** The error a remote call reported, and the context it ran under. *)
Definition call_err (e : event) : option lib_error :=
  match e with EvCall _ _ _ _ _ err => err | _ => None end.

Definition call_ctx (e : event) : option Context :=
  match e with EvCall _ ctx _ _ _ _ => Some ctx | _ => None end.

(** How two error kinds of the design show in the errors of the code: a
    failed remote call is reported under the name of its method, and a
    remote call that ran out of time is a failed remote call whose cause
    is the error of the expired context. *)
Definition remote_methods : list string :=
  ["SetLinkDNS"; "SetLinkDomains"; "RevertLink"].

Definition is_RemoteCallFailed (e : error) : bool :=
  match e with
  | Errorf context _ => bool_decide (context ∈ remote_methods)
  | _ => false
  end.

Definition is_Timeout (e : error) : bool :=
  match e with
  | Errorf context DeadlineExceeded => bool_decide (context ∈ remote_methods)
  | _ => false
  end.

(** ** Hosts for examples *)

(** A host for examples: fixed answers to the three checks, and a remote
    service that answers by method name; the state counts the remote calls
    served. *)
Definition host (link : string * option lib_error)
    (bus : option lib_error)
    (ifc : option Interface * option lib_error)
    (remote : string → option lib_error) : Env nat := {|
  env_readlink := λ _ _, link;
  env_system_bus := λ w, ({| conn_id := 1 |}, bus, w);
  env_tailscale := λ w, ([], ifc.1, ifc.2, w);
  env_call := λ _ _ method _ _ w, (remote method, S w)
|}.

Definition stub_link : string * option lib_error :=
  ("/run/systemd/resolve/stub-resolv.conf", None).

Definition tailscale0 : Interface := {| Index := 7; Name := "tailscale0" |}.

Definition all_ok : string → option lib_error := λ _, None.

Definition fail_on (m : string) (e : lib_error) : string → option lib_error :=
  λ method, if String.eqb method m then Some e else None.

(** The servers 1.1.1.1 and 2606:4700:4700::1111 and the search domain
    corp.example. *)
Definition ip_1_1_1_1 : IP := v4Addr (Array 4 [x01; x01; x01; x01] eq_refl).
Definition ip_2606_4700_4700__1111 : IP :=
  v6Addr (Array 16 [x26; x06; x47; x00; x47; x00; x00; x00;
                    x00; x00; x00; x00; x00; x00; x11; x11] eq_refl).

Definition two_servers : list IP := [ip_1_1_1_1; ip_2606_4700_4700__1111].
Definition one_domain : list string := ["corp.example."].




(** A host on which everything works, and one whose interface is not up
    yet, whose bus cannot be reached, whose link points elsewhere. *)
Definition working_host : Env nat :=
  host stub_link None (Some tailscale0, None) all_ok.

Definition early_host : Env nat :=
  host stub_link None (None, None) all_ok.

Definition busless_host : Env nat :=
  host stub_link (Some (LibError "dial unix: no such file")) (None, None)
    all_ok.

Definition plain_host : Env nat :=
  host ("/etc/resolvconf/run/resolv.conf", None) None
    (Some tailscale0, None) all_ok.

(** ** Vocabulary for the further statements *)

(** An IPv4 address or an IPv6 address without zone: what the wire form
    of a nameserver can tell apart. *)
Definition plain (ip : IP) : bool :=
  match ip with v4Addr _ | v6Addr _ => true | _ => false end.

(** An address with its zone, if it has one, taken off. *)
Definition without_zone (ip : IP) : IP :=
  match ip with v6AddrZone a _ => v6Addr a | _ => ip end.

(** A request apart from its answer, and the requests of a whole run of
    [systemdUpDNS] and of [systemdDownDNS], in the order of the source. *)
Inductive step : Type :=
| AtReadlink (name : string)
| AtSystemBus
| AtTailscale
| AtCall (method : string).

Definition step_of (e : event) : step :=
  match e with
  | EvReadlink name _ => AtReadlink name
  | EvSystemBus _ => AtSystemBus
  | EvTailscale _ => AtTailscale
  | EvCall _ _ method _ _ _ => AtCall method
  end.

Definition up_steps : list step :=
  [AtReadlink "/etc/resolv.conf"; AtSystemBus; AtTailscale;
   AtCall "org.freedesktop.resolve1.Manager.SetLinkDNS";
   AtCall "org.freedesktop.resolve1.Manager.SetLinkDomains"].

Definition down_steps : list step :=
  [AtReadlink "/etc/resolv.conf"; AtSystemBus; AtTailscale;
   AtCall "org.freedesktop.resolve1.Manager.RevertLink"].

(** The error a request reported, of whatever kind the request is. *)
Definition ev_err (e : event) : option lib_error :=
  match e with
  | EvReadlink _ (_, err) => err
  | EvSystemBus (_, err) => err
  | EvTailscale (_, _, err) => err
  | EvCall _ _ _ _ _ err => err
  end.

(** The object, the flags and the arguments of a remote call. *)
Definition call_obj (e : event) : option BusObject :=
  match e with EvCall o _ _ _ _ _ => Some o | _ => None end.

Definition call_flags (e : event) : option Z :=
  match e with EvCall _ _ _ flags _ _ => Some flags | _ => None end.

Definition call_args (e : event) : list arg :=
  match e with EvCall _ _ _ _ args _ => args | _ => [] end.

(** The words the file puts before the errors it wraps. *)
Definition contexts : list string :=
  ["connecting to system bus"; "getting interface index";
   "SetLinkDNS"; "SetLinkDomains"; "RevertLink"].

Definition from_this_file (e : error) : Prop :=
  match e with
  | Errorf context _ => context ∈ contexts
  | _ => True
  end.

(** fe80::1 on eth0 and on eth1, and a host whose resolver takes the
    nameservers and refuses the search domains. *)
Definition fe80__1 : array 16 :=
  Array 16 [xfe; x80; x00; x00; x00; x00; x00; x00;
            x00; x00; x00; x00; x00; x00; x00; x01] eq_refl.

Definition ip_fe80__1_eth0 : IP := v6AddrZone fe80__1 "eth0".
Definition ip_fe80__1_eth1 : IP := v6AddrZone fe80__1 "eth1".

Definition half_host : Env nat :=
  host stub_link None (Some tailscale0, None)
    (fail_on "org.freedesktop.resolve1.Manager.SetLinkDomains"
       (LibError "Invalid search domain")).

(** ** Facts about the pure parts *)

Lemma array_length {n} (a : array n) : length (elems a) = n.
Proof. destruct a as [l H]. simpl. by apply Nat.eqb_eq. Qed.

Lemma As16_length (ip : IP) : length (As16 ip) = 16%nat.
Proof.
  destruct ip as [|a|a|a zone]; simpl; try done.
  - by rewrite (array_length a).
  - apply (array_length a).
  - apply (array_length a).
Qed.

Lemma isStubPath_elem_of (dst : string) (paths : list string) :
  isStubPath dst paths = true ↔ dst ∈ paths.
Proof.
  induction paths as [|path paths IH]; simpl.
  - split; [done | by intros ?%elem_of_nil].
  - rewrite elem_of_cons.
    destruct (String.eqb_spec dst path) as [->|Hne]; [tauto|].
    rewrite IH. tauto.
Qed.

(** A loop that writes [f x] at its index into a slice made long enough
    beforehand leaves the image of the ranged-over list. *)
Lemma for_range_insert {T U : Type}
    (body : nat → T → list U → list U) (f : T → U) :
  (∀ i x s, body i x s = <[i := f x]> s) →
  ∀ (xs : list T) (done rest : list U),
    length rest = length xs →
    for_range body (length done) xs (done ++ rest) = done ++ (f <$> xs).
Proof.
  intros Hbody xs.
  induction xs as [|x xs IH]; intros done rest Hlen.
  - by destruct rest.
  - destruct rest as [|r rest]; [done|].
    simpl. rewrite Hbody.
    rewrite insert_app_r_alt, Nat.sub_diag by lia. simpl.
    specialize (IH (done ++ [f x]) rest).
    rewrite length_app, Nat.add_1_r, <- app_assoc in IH. simpl in IH.
    rewrite IH by (simpl in Hlen; lia).
    by rewrite <- app_assoc.
Qed.

Lemma for_range_make {T U : Type}
    (body : nat → T → list U → list U) (f : T → U) (zero : U) (xs : list T) :
  (∀ i x s, body i x s = <[i := f x]> s) →
  for_range body 0%nat xs (make zero (length xs)) = f <$> xs.
Proof.
  intros Hbody.
  apply (for_range_insert body f Hbody xs [] (make zero (length xs))).
  apply length_replicate.
Qed.

Lemma linkNameservers_fmap (servers : list IP) :
  linkNameservers servers = nameserver_of <$> servers.
Proof.
  apply for_range_make. intros i x s. unfold nameserver_of.
  by destruct (Is4 x).
Qed.

Lemma linkDomains_fmap (domains : list string) :
  linkDomains domains =
  (λ domain, {| Domain := domain; RoutingOnly := false |}) <$> domains.
Proof. by apply for_range_make. Qed.

(** ** Facts about running *)

Arguments isStubPath : simpl never.
Arguments linkNameservers : simpl never.
Arguments linkDomains : simpl never.

(** Answer the next request of the running function in every possible
    way. *)
Ltac next_answer :=
  match goal with
  | |- context [env_readlink ?E ?n ?w] =>
      destruct (env_readlink E n w) as [? [?|]] eqn:?
  | |- context [env_system_bus ?E ?w] =>
      destruct (env_system_bus E w) as [[? [?|]] ?] eqn:?
  | |- context [env_tailscale ?E ?w] =>
      destruct (env_tailscale E w) as [[[? [?|]] [?|]] ?] eqn:?
  | |- context [env_call ?E ?o ?c ?m ?f ?a ?w] =>
      destruct (env_call E o c m f a w) as [[?|] ?] eqn:?
  | |- context [isStubPath ?d ?p] =>
      destruct (isStubPath d p) eqn:?
  end; cbn in *.

(** Decide which entry of a log a hypothesis of membership speaks of. *)
Ltac which_event H :=
  repeat (apply elem_of_cons in H as [H|H];
          [try discriminate H; try injection H as ?; subst|]);
  try (apply elem_of_nil in H; destruct H).

Lemma run_systemdIsActive {W : Type} (E : Env W) (w : W) :
  run E systemdIsActive w =
  let link := env_readlink E "/etc/resolv.conf" w in
  {| result := match link.2 with
               | Some _ => false
               | None => isStubPath link.1 systemdStubPaths
               end;
     final := w;
     trace := [EvReadlink "/etc/resolv.conf" link] |}.
Proof.
  unfold systemdIsActive. cbn.
  by destruct (env_readlink E "/etc/resolv.conf" w) as [dst [e|]].
Qed.

(** The message of a failed bus connection is the message of no error of
    another kind. *)
Lemma connect_message_distinct (cause : lib_error) (other : error) :
  other = errNotSystemd ∨ other = errNotReady ∨
  is_RemoteCallFailed other = true →
  Error other ≠ Error (Errorf "connecting to system bus" cause).
Proof.
  intros [-> | [-> | Hremote]]; try discriminate.
  destruct other as [| |context cause']; try discriminate Hremote.
  apply bool_decide_eq_true in Hremote. unfold remote_methods in Hremote.
  which_event Hremote; simpl; discriminate.
Qed.

(** ** The activity detector *)

(** C2: [systemdIsActive] returns true exactly when reading the link
    /etc/resolv.conf succeeds with a target that is one of the stub paths;
    for any other target and for any failed read it returns false.  It
    returns a boolean in every environment, reads the link once and asks
    for nothing else. *)
Theorem systemdIsActive_spec {W : Type} (E : Env W) (w : W) :
  let link := env_readlink E "/etc/resolv.conf" w in
  let o := run E systemdIsActive w in
  (result o = true ↔
     link.2 = None ∧
     (link.1 = "/lib/systemd/resolv.conf" ∨
      link.1 = "/usr/lib/systemd/resolv.conf" ∨
      link.1 = "/run/systemd/resolve/stub-resolv.conf" ∨
      link.1 = "/var/run/systemd/resolve/stub-resolv.conf")) ∧
  (result o = false ↔ is_Some link.2 ∨ link.1 ∉ systemdStubPaths) ∧
  trace o = [EvReadlink "/etc/resolv.conf" link] ∧
  final o = w.
Proof.
  intros link o. subst o. rewrite run_systemdIsActive. fold link. simpl.
  assert (Hpaths : link.1 ∈ systemdStubPaths ↔
    link.1 = "/lib/systemd/resolv.conf" ∨
    link.1 = "/usr/lib/systemd/resolv.conf" ∨
    link.1 = "/run/systemd/resolve/stub-resolv.conf" ∨
    link.1 = "/var/run/systemd/resolve/stub-resolv.conf").
  { unfold systemdStubPaths. rewrite !elem_of_cons, elem_of_nil. tauto. }
  rewrite <- Hpaths.
  destruct link as [dst [e|]]; simpl.
  - split; [|split; [|done]].
    + split; [done | by intros [? _]].
    + split; [|done]. intros _. left. by eexists.
  - pose proof (isStubPath_elem_of dst systemdStubPaths) as Hstub.
    destruct (isStubPath dst systemdStubPaths).
    + split; [|split; [|done]].
      * split; [|done]. intros _. split; [done | by apply Hstub].
      * split; [done|]. intros [[? [=]]|Hn]. destruct Hn. by apply Hstub.
    + split; [|split; [|done]].
      * split; [done|]. intros [_ Hin]. by apply Hstub.
      * split; [|done]. intros _. right. intros Hin. by apply Hstub in Hin.
Qed.

(** ** Marshaling *)

(** C3: the marshaled nameservers are as many as the servers and stand in
    their order; at the place of an IPv4 address stands an entry of family
    AF_INET whose address is the four bytes that end the sixteen-byte form,
    at the place of an IPv6 address an entry of family AF_INET6 whose
    address is the whole sixteen-byte form. *)
Theorem linkNameservers_spec (servers : list IP) :
  length (linkNameservers servers) = length servers ∧
  ∀ (i : nat) (server : IP), servers !! i = Some server →
    length (As16 server) = 16%nat ∧
    ∃ ns, linkNameservers servers !! i = Some ns ∧
      (Is4 server = true →
         Family ns = AF_INET ∧ length (Address ns) = 4%nat ∧
         ∃ front, As16 server = front ++ Address ns) ∧
      (Is6 server = true →
         Family ns = AF_INET6 ∧ length (Address ns) = 16%nat ∧
         Address ns = As16 server).
Proof.
  rewrite linkNameservers_fmap. split; [apply length_fmap|].
  intros i server Hi. split; [apply As16_length|].
  exists (nameserver_of server).
  split; [by rewrite list_lookup_fmap, Hi|].
  unfold nameserver_of.
  split; intros His.
  - rewrite His. simpl. split; [done|]. split.
    + rewrite length_drop, As16_length. done.
    + exists (take 12 (As16 server)). by rewrite take_drop.
  - destruct server; try discriminate His; simpl;
      by rewrite (array_length a).
Qed.

(** C7: the marshaled search domains carry the input domains in their
    order, one entry for each, and no entry is routing-only. *)
Theorem linkDomains_spec (domains : list string) :
  length (linkDomains domains) = length domains ∧
  Domain <$> linkDomains domains = domains ∧
  Forall (λ d, RoutingOnly d = false) (linkDomains domains).
Proof.
  rewrite linkDomains_fmap. split; [apply length_fmap|]. split.
  - rewrite <- list_fmap_compose. apply list_fmap_id.
  - by apply Forall_fmap, Forall_true.
Qed.

(** ** The configurator: failing before any remote call *)

(** C4: when the detector reports inactive, [systemdUpDNS] and
    [systemdDownDNS] return [errNotSystemd]; the log holds the read of the
    link and nothing else (no bus connection, no interface resolution, no
    remote call), and the environment is in the state it started in. *)
Theorem inactive_not_managed {W : Type} (E : Env W) (w : W)
    (servers : list IP) (domains : list string) (p : prog (option error)) :
  p = systemdUpDNS servers domains ∨ p = systemdDownDNS →
  result (run E systemdIsActive w) = false →
  let o := run E p w in
  result o = Some errNotSystemd ∧
  trace o =
    [EvReadlink "/etc/resolv.conf" (env_readlink E "/etc/resolv.conf" w)] ∧
  (∀ r, EvSystemBus r ∉ trace o) ∧
  (∀ r, EvTailscale r ∉ trace o) ∧
  calls (trace o) = [] ∧
  final o = w.
Proof.
  intros Hp. rewrite run_systemdIsActive.
  assert (Hnot : ∀ (l : string * option lib_error) (e : event),
    (∀ n r, e ≠ EvReadlink n r) → e ∉ [EvReadlink "/etc/resolv.conf" l]).
  { intros l e He Hin. which_event Hin. by eapply He. }
  destruct Hp as [-> | ->];
    unfold systemdUpDNS, systemdDownDNS, systemdIsActive; cbn;
    next_answer; try next_answer; intros Hact; try discriminate Hact;
    (split_and!; try done; intros r; by apply Hnot).
Qed.

(** C5: in [systemdUpDNS] and in [systemdDownDNS], an interface
    resolution that reports no error and no interface gives
    [errNotReady], and one that reports an error gives that error wrapped
    as the failure of getting the interface index, which is not
    [errNotReady]; either way no remote call is issued. *)
Theorem interface_resolution_outcomes {W : Type} (E : Env W) (w : W)
    (servers : list IP) (domains : list string) (p : prog (option error)) :
  p = systemdUpDNS servers domains ∨ p = systemdDownDNS →
  let o := run E p w in
  (∀ ip, EvTailscale (ip, None, None) ∈ trace o →
     result o = Some errNotReady ∧ calls (trace o) = []) ∧
  (∀ ip iface cause, EvTailscale (ip, iface, Some cause) ∈ trace o →
     result o = Some (Errorf "getting interface index" cause) ∧
     result o ≫= Unwrap = Some cause ∧
     result o ≠ Some errNotReady ∧
     calls (trace o) = []).
Proof.
  intros [-> | ->];
    unfold systemdUpDNS, systemdDownDNS, systemdIsActive; cbn;
    repeat next_answer;
    (split; [intros ip' Hin | intros ip' iface' cause' Hin]);
    which_event Hin; done.
Qed.

(** C9: in [systemdUpDNS] and in [systemdDownDNS] the bus is connected to
    only in a run whose detector reported active, right after the read of
    the link; and when the connection fails, the function returns the
    cause wrapped as the failure of connecting to the system bus, an error
    that is neither [errNotSystemd] nor [errNotReady] nor the failure of a
    remote call, timed out or not, and the log ends there: no interface
    resolution and no remote call. *)
Theorem bus_connection_failure {W : Type} (E : Env W) (w : W)
    (servers : list IP) (domains : list string) (p : prog (option error)) :
  p = systemdUpDNS servers domains ∨ p = systemdDownDNS →
  let o := run E p w in
  let link := env_readlink E "/etc/resolv.conf" w in
  (∀ r, EvSystemBus r ∈ trace o →
     result (run E systemdIsActive w) = true ∧
     ∃ rest, trace o =
       EvReadlink "/etc/resolv.conf" link :: EvSystemBus r :: rest) ∧
  (∀ conn cause,
     result (run E systemdIsActive w) = true →
     EvSystemBus (conn, Some cause) ∈ trace o →
     let err := Errorf "connecting to system bus" cause in
     result o = Some err ∧
     trace o =
       [EvReadlink "/etc/resolv.conf" link; EvSystemBus (conn, Some cause)] ∧
     (∀ r, EvTailscale r ∉ trace o) ∧
     calls (trace o) = [] ∧
     err ≠ errNotSystemd ∧ err ≠ errNotReady ∧
     is_RemoteCallFailed err = false ∧ is_Timeout err = false ∧
     (∀ other,
        other = errNotSystemd ∨ other = errNotReady ∨
        is_RemoteCallFailed other = true →
        Error other ≠ Error err)).
Proof.
  intros Hp. cbn zeta. rewrite run_systemdIsActive.
  pose proof connect_message_distinct as Hmsg.
  destruct Hp as [-> | ->];
    unfold systemdUpDNS, systemdDownDNS, systemdIsActive; cbn;
    repeat next_answer;
    (split; [intros r Hin | intros conn' cause' Hact Hin]);
    which_event Hin; try discriminate Hact;
    try (split; [done | by eexists]);
    (split_and!; try done;
       try (intros r Hr; by which_event Hr); try apply Hmsg;
       try case_match; by vm_compute).
Qed.

(** ** The configurator: the remote calls *)

(** C1: in a run of [systemdUpDNS] whose detector reported active and
    whose interface resolution returned an interface without error, the
    remote calls are: SetLinkDNS with the interface index and, for each
    server in order, AF_INET with the last four bytes of its
    sixteen-byte form if it is an IPv4 address and AF_INET6 with the
    sixteen bytes otherwise; and, if and only if that call reported no
    error, after it SetLinkDomains with the same index and, for each
    domain in order, the domain with routing-only false.  The function
    returns nil exactly when two calls were issued and neither reported
    an error; a failed call is returned wrapped under the name of its
    method. *)
Theorem systemdUpDNS_remote_calls {W : Type} (E : Env W) (w : W)
    (servers : list IP) (domains : list string)
    (ip : list byte) (iface : Interface) :
  let o := run E (systemdUpDNS servers domains) w in
  let resolved conn :=
    Object conn "org.freedesktop.resolve1" "/org/freedesktop/resolve1" in
  let ctx := WithTimeout Background systemdSetTimeout in
  let set_nameservers conn err :=
    EvCall (resolved conn) ctx
      "org.freedesktop.resolve1.Manager.SetLinkDNS" 0
      [ArgInt (Index iface);
       ArgNameservers
         ((λ server,
             if Is4 server
             then {| Family := AF_INET; Address := drop 12 (As16 server) |}
             else {| Family := AF_INET6; Address := As16 server |})
          <$> servers)] err in
  let set_domains conn err :=
    EvCall (resolved conn) ctx
      "org.freedesktop.resolve1.Manager.SetLinkDomains" 0
      [ArgInt (Index iface);
       ArgDomains
         ((λ domain, {| Domain := domain; RoutingOnly := false |})
          <$> domains)] err in
  result (run E systemdIsActive w) = true →
  EvTailscale (ip, Some iface, None) ∈ trace o →
  (∃ conn err1,
     match err1 with
     | Some cause =>
         calls (trace o) = [set_nameservers conn err1] ∧
         result o = Some (Errorf "SetLinkDNS" cause)
     | None =>
         ∃ err2,
           calls (trace o) =
             [set_nameservers conn None; set_domains conn err2] ∧
           result o = Errorf "SetLinkDomains" <$> err2
     end) ∧
  (result o = None ↔
     length (calls (trace o)) = 2%nat ∧
     Forall (λ c, call_err c = None) (calls (trace o))).
Proof.
  cbn zeta. rewrite run_systemdIsActive.
  unfold systemdUpDNS, systemdIsActive; cbn.
  repeat next_answer; intros Hact Hin; which_event Hin;
    try discriminate Hact;
    rewrite ?linkNameservers_fmap, ?linkDomains_fmap.
  - split.
    + eexists _, (Some _). by split.
    + split; [done | by intros [[=] _]].
  - split.
    + eexists _, None. eexists (Some _). by split.
    + split; [done|]. intros [_ Hall].
      apply Forall_cons in Hall as [_ Hall].
      by apply Forall_cons in Hall as [[=] _].
  - split.
    + eexists _, None. exists None. by split.
    + split; [|done]. intros _. split; [done|].
      by repeat constructor.
Qed.

(** C8: [systemdDownDNS] makes the checks of [systemdUpDNS] (the read of
    the link, the bus connection, the interface resolution) with the same
    answers, and every remote call of either runs under the context that
    ends [systemdSetTimeout] after it was made.  When a check fails,
    [systemdDownDNS] returns what [systemdUpDNS] returns and issues no
    remote call; when the checks pass, it issues one remote call,
    RevertLink with the interface index, and returns nil exactly when that
    call reports no error. *)
Theorem systemdDownDNS_spec {W : Type} (E : Env W) (w : W)
    (servers : list IP) (domains : list string) :
  let down := run E systemdDownDNS w in
  let up := run E (systemdUpDNS servers domains) w in
  let link := env_readlink E "/etc/resolv.conf" w in
  checks (trace down) = checks (trace up) ∧
  Forall (λ c, call_ctx c = Some (WithTimeout Background systemdSetTimeout))
    (calls (trace down) ++ calls (trace up)) ∧
  ((∃ conn ip iface err,
      result (run E systemdIsActive w) = true ∧
      trace down =
        [EvReadlink "/etc/resolv.conf" link; EvSystemBus (conn, None);
         EvTailscale (ip, Some iface, None);
         RevertLink_event conn iface err] ∧
      calls (trace down) = [RevertLink_event conn iface err] ∧
      result down = Errorf "RevertLink" <$> err ∧
      (result down = None ↔ err = None))
   ∨
   (∃ e, result down = Some e ∧ result up = Some e ∧
      calls (trace down) = [] ∧
      trace down = trace up ∧ final down = final up)).
Proof.
  cbn zeta. rewrite run_systemdIsActive.
  unfold systemdUpDNS, systemdDownDNS, systemdIsActive; cbn.
  do 4 (try next_answer);
    try (split; [done|]; split; [by repeat constructor|];
         right; by eexists).
  repeat next_answer;
    (split; [done|]; split; [by repeat constructor|];
     left; eexists _, _, _, _; by split_and!).
Qed.



(** C10: with no servers and no domains, in a run whose detector
    reported active and whose interface resolution returned an interface
    without error, SetLinkDNS is issued with the empty nameserver
    sequence and SetLinkDomains after it with the empty domain sequence,
    the second under the one condition that holds for any lists: that
    the first reported no error.  Nothing depends on the lists being
    empty: on a host whose resolver answers a call whatever its
    arguments, the run makes the requests, gets the errors and returns
    the result of the run with any other lists. *)
Theorem systemdUpDNS_empty_lists {W : Type} (E : Env W) (w : W)
    (ip : list byte) (iface : Interface) :
  let o := run E (systemdUpDNS [] []) w in
  let resolved conn :=
    Object conn "org.freedesktop.resolve1" "/org/freedesktop/resolve1" in
  let ctx := WithTimeout Background systemdSetTimeout in
  result (run E systemdIsActive w) = true →
  EvTailscale (ip, Some iface, None) ∈ trace o →
  (∃ conn err1,
     let first :=
       EvCall (resolved conn) ctx
         "org.freedesktop.resolve1.Manager.SetLinkDNS" 0
         [ArgInt (Index iface); ArgNameservers []] err1 in
     match err1 with
     | Some _ => calls (trace o) = [first]
     | None =>
         ∃ err2,
           calls (trace o) =
             [first;
              EvCall (resolved conn) ctx
                "org.freedesktop.resolve1.Manager.SetLinkDomains" 0
                [ArgInt (Index iface); ArgDomains []] err2]
     end) ∧
  ((∀ obj c method flags args args' w',
      env_call E obj c method flags args w' =
      env_call E obj c method flags args' w') →
   ∀ servers domains,
     let o' := run E (systemdUpDNS servers domains) w in
     step_of <$> trace o = step_of <$> trace o' ∧
     ev_err <$> trace o = ev_err <$> trace o' ∧
     result o = result o' ∧
     final o = final o').
Proof.
  intros o resolved ctx Hact Hin. split.
  - revert Hact Hin. subst o resolved ctx.
    rewrite run_systemdIsActive.
    unfold systemdUpDNS, systemdIsActive; cbn.
    repeat next_answer; intros Hact Hin; which_event Hin;
      try discriminate Hact.
    + by eexists _, (Some _).
    + eexists _, None. by eexists.
    + eexists _, None. by eexists.
  - clear Hact Hin. intros Hblind servers domains. subst o.
    unfold systemdUpDNS, systemdIsActive; cbn.
    do 4 (try next_answer); try done.
    match goal with |- context [ArgInt (Index ?i)] =>
      rewrite (Hblind _ _ _ _
        [ArgInt (Index i); ArgNameservers (linkNameservers servers)]
        [ArgInt (Index i); ArgNameservers (linkNameservers [])])
    end.
    next_answer; [done|].
    match goal with |- context [ArgInt (Index ?i)] =>
      rewrite (Hblind _ _ _ _
        [ArgInt (Index i); ArgDomains (linkDomains domains)]
        [ArgInt (Index i); ArgDomains (linkDomains [])])
    end.
    by next_answer.
Qed.

(** ** The statements at work on the example hosts *)

Lemma linkNameservers_spec_witness :
  two_servers !! 1%nat = Some ip_2606_4700_4700__1111 ∧
  length (As16 ip_2606_4700_4700__1111) = 16%nat ∧
  ∃ ns, linkNameservers two_servers !! 1%nat = Some ns ∧
    (Is4 ip_2606_4700_4700__1111 = true →
       Family ns = AF_INET ∧ length (Address ns) = 4%nat ∧
       ∃ front, As16 ip_2606_4700_4700__1111 = front ++ Address ns) ∧
    (Is6 ip_2606_4700_4700__1111 = true →
       Family ns = AF_INET6 ∧ length (Address ns) = 16%nat ∧
       Address ns = As16 ip_2606_4700_4700__1111).
Proof.
  split; [reflexivity|].
  exact (proj2 (linkNameservers_spec two_servers) 1%nat
           ip_2606_4700_4700__1111 eq_refl).
Defined.

Lemma inactive_not_managed_witness :
  result (run plain_host systemdIsActive 0%nat) = false ∧
  result (run plain_host systemdDownDNS 0%nat) = Some errNotSystemd ∧
  final (run plain_host systemdDownDNS 0%nat) = 0%nat.
Proof.
  split; [reflexivity|].
  destruct (inactive_not_managed plain_host 0%nat [] [] systemdDownDNS
              (or_intror eq_refl) eq_refl) as (Hres & _ & _ & _ & _ & Hfin).
  exact (conj Hres Hfin).
Defined.

Lemma interface_resolution_outcomes_witness :
  EvTailscale ([], None, None)
    ∈ trace (run early_host (systemdUpDNS two_servers one_domain) 0%nat) ∧
  result (run early_host (systemdUpDNS two_servers one_domain) 0%nat)
    = Some errNotReady ∧
  calls (trace (run early_host (systemdUpDNS two_servers one_domain) 0%nat))
    = [].
Proof.
  assert (Hin : EvTailscale ([], None, None)
    ∈ trace (run early_host (systemdUpDNS two_servers one_domain) 0%nat)).
  { do 2 apply list_elem_of_further. apply list_elem_of_here. }
  split; [exact Hin|].
  exact (proj1 (interface_resolution_outcomes early_host 0%nat
                  two_servers one_domain _ (or_introl eq_refl)) [] Hin).
Defined.

Lemma bus_connection_failure_witness :
  result (run busless_host systemdIsActive 0%nat) = true ∧
  result (run busless_host systemdDownDNS 0%nat) =
    Some (Errorf "connecting to system bus"
            (LibError "dial unix: no such file")) ∧
  calls (trace (run busless_host systemdDownDNS 0%nat)) = [].
Proof.
  split; [reflexivity|].
  assert (Hin : EvSystemBus
      ({| conn_id := 1 |}, Some (LibError "dial unix: no such file"))
    ∈ trace (run busless_host systemdDownDNS 0%nat)).
  { apply list_elem_of_further. apply list_elem_of_here. }
  destruct (proj2 (bus_connection_failure busless_host 0%nat [] []
                     systemdDownDNS (or_intror eq_refl)) _ _ eq_refl Hin)
    as (Hres & _ & _ & Hcalls & _).
  exact (conj Hres Hcalls).
Defined.

Lemma systemdUpDNS_remote_calls_witness :
  result (run working_host systemdIsActive 0%nat) = true ∧
  EvTailscale ([], Some tailscale0, None)
    ∈ trace (run working_host (systemdUpDNS two_servers one_domain) 0%nat) ∧
  ∃ conn err1,
    match err1 with
    | Some cause =>
        calls (trace (run working_host
                        (systemdUpDNS two_servers one_domain) 0%nat)) =
          [EvCall
             (Object conn "org.freedesktop.resolve1"
                "/org/freedesktop/resolve1")
             (WithTimeout Background systemdSetTimeout)
             "org.freedesktop.resolve1.Manager.SetLinkDNS" 0
             [ArgInt 7;
              ArgNameservers
                [{| Family := 2; Address := [x01; x01; x01; x01] |};
                 {| Family := 10;
                    Address := [x26; x06; x47; x00; x47; x00; x00; x00;
                                x00; x00; x00; x00; x00; x00; x11; x11] |}]]
             err1] ∧
        result (run working_host
                  (systemdUpDNS two_servers one_domain) 0%nat) =
          Some (Errorf "SetLinkDNS" cause)
    | None =>
        ∃ err2,
          calls (trace (run working_host
                          (systemdUpDNS two_servers one_domain) 0%nat)) =
            [EvCall
               (Object conn "org.freedesktop.resolve1"
                  "/org/freedesktop/resolve1")
               (WithTimeout Background systemdSetTimeout)
               "org.freedesktop.resolve1.Manager.SetLinkDNS" 0
               [ArgInt 7;
                ArgNameservers
                  [{| Family := 2; Address := [x01; x01; x01; x01] |};
                   {| Family := 10;
                      Address := [x26; x06; x47; x00; x47; x00; x00; x00;
                                  x00; x00; x00; x00; x00; x00; x11; x11] |}]]
               None;
             EvCall
               (Object conn "org.freedesktop.resolve1"
                  "/org/freedesktop/resolve1")
               (WithTimeout Background systemdSetTimeout)
               "org.freedesktop.resolve1.Manager.SetLinkDomains" 0
               [ArgInt 7;
                ArgDomains
                  [{| Domain := "corp.example."; RoutingOnly := false |}]]
               err2] ∧
          result (run working_host
                    (systemdUpDNS two_servers one_domain) 0%nat) =
            Errorf "SetLinkDomains" <$> err2
    end.
Proof.
  assert (Hin : EvTailscale ([], Some tailscale0, None)
    ∈ trace (run working_host (systemdUpDNS two_servers one_domain) 0%nat)).
  { do 2 apply list_elem_of_further. apply list_elem_of_here. }
  split; [reflexivity|]. split; [exact Hin|].
  exact (proj1 (systemdUpDNS_remote_calls working_host 0%nat
                  two_servers one_domain [] tailscale0 eq_refl Hin)).
Defined.


Lemma systemdUpDNS_empty_lists_witness :
  result (run working_host systemdIsActive 0%nat) = true ∧
  EvTailscale ([], Some tailscale0, None)
    ∈ trace (run working_host (systemdUpDNS [] []) 0%nat) ∧
  (∃ conn err1,
     match err1 with
     | Some _ =>
         calls (trace (run working_host (systemdUpDNS [] []) 0%nat)) =
           [EvCall
              (Object conn "org.freedesktop.resolve1"
                 "/org/freedesktop/resolve1")
              (WithTimeout Background systemdSetTimeout)
              "org.freedesktop.resolve1.Manager.SetLinkDNS" 0
              [ArgInt 7; ArgNameservers []] err1]
     | None =>
         ∃ err2,
           calls (trace (run working_host (systemdUpDNS [] []) 0%nat)) =
             [EvCall
                (Object conn "org.freedesktop.resolve1"
                   "/org/freedesktop/resolve1")
                (WithTimeout Background systemdSetTimeout)
                "org.freedesktop.resolve1.Manager.SetLinkDNS" 0
                [ArgInt 7; ArgNameservers []] err1;
              EvCall
                (Object conn "org.freedesktop.resolve1"
                   "/org/freedesktop/resolve1")
                (WithTimeout Background systemdSetTimeout)
                "org.freedesktop.resolve1.Manager.SetLinkDomains" 0
                [ArgInt 7; ArgDomains []] err2]
     end) ∧
  step_of <$> trace (run working_host (systemdUpDNS [] []) 0%nat) =
    step_of <$>
      trace (run working_host (systemdUpDNS two_servers one_domain) 0%nat) ∧
  result (run working_host (systemdUpDNS [] []) 0%nat) =
    result (run working_host (systemdUpDNS two_servers one_domain) 0%nat).
Proof.
  assert (Hin : EvTailscale ([], Some tailscale0, None)
    ∈ trace (run working_host (systemdUpDNS [] []) 0%nat)).
  { do 2 apply list_elem_of_further. apply list_elem_of_here. }
  split; [reflexivity|]. split; [exact Hin|].
  destruct (systemdUpDNS_empty_lists working_host 0%nat [] tailscale0
              eq_refl Hin) as [Hcalls Hsame].
  split; [exact Hcalls|].
  destruct (Hsame (λ _ _ _ _ _ _ _, eq_refl) two_servers one_domain)
    as (Hsteps & _ & Hres & _).
  exact (conj Hsteps Hres).
Defined.

(** The run of [systemdUpDNS] on the working host, interface index 7,
    with the two servers and the one domain: the two remote calls, their
    arguments written out. *)
Example working_host_calls :
  calls (trace (run working_host (systemdUpDNS two_servers one_domain) 0%nat))
  = [EvCall
       (Object {| conn_id := 1 |} "org.freedesktop.resolve1"
          "/org/freedesktop/resolve1")
       (WithTimeout Background 1000000000)
       "org.freedesktop.resolve1.Manager.SetLinkDNS" 0
       [ArgInt 7;
        ArgNameservers
          [{| Family := 2; Address := [x01; x01; x01; x01] |};
           {| Family := 10;
              Address := [x26; x06; x47; x00; x47; x00; x00; x00;
                          x00; x00; x00; x00; x00; x00; x11; x11] |}]]
       None;
     EvCall
       (Object {| conn_id := 1 |} "org.freedesktop.resolve1"
          "/org/freedesktop/resolve1")
       (WithTimeout Background 1000000000)
       "org.freedesktop.resolve1.Manager.SetLinkDomains" 0
       [ArgInt 7;
        ArgDomains [{| Domain := "corp.example."; RoutingOnly := false |}]]
       None].
Proof. reflexivity. Qed.

(** ** Further facts about the pure parts *)

Lemma array_eq {n : nat} (a b : array n) : elems a = elems b → a = b.
Proof.
  destruct a as [la Ha], b as [lb Hb]. simpl. intros ->.
  f_equal. apply proof_irrel.
Qed.

Lemma nameserver_of_inj (a b : IP) :
  plain a = true → plain b = true →
  nameserver_of a = nameserver_of b → a = b.
Proof.
  destruct a as [|a|a|a za], b as [|b|b|b zb]; try discriminate;
    intros _ _; cbv [nameserver_of Is4 AF_INET AF_INET6 As16];
    intros [=]; f_equal; by apply array_eq.
Qed.

(** Every error [systemdUpDNS] or [systemdDownDNS] returns is one of the
    two package-level errors or wraps a cause under one of the five
    contexts. *)
Lemma returned_from_this_file {W : Type} (E : Env W) (w : W)
    (servers : list IP) (domains : list string)
    (p : prog (option error)) (e : error) :
  p = systemdUpDNS servers domains ∨ p = systemdDownDNS →
  result (run E p w) = Some e → from_this_file e.
Proof.
  intros [-> | ->];
    unfold systemdUpDNS, systemdDownDNS, systemdIsActive; cbn;
    repeat next_answer; intros [= <-]; try done;
    unfold from_this_file, contexts;
    repeat first [apply list_elem_of_here | apply list_elem_of_further].
Qed.

Lemma messages_apart (e1 e2 : error) :
  from_this_file e1 → from_this_file e2 →
  Error e1 = Error e2 →
  match e1, e2 with
  | Errorf c1 x1, Errorf c2 x2 => c1 = c2 ∧ lib_Error x1 = lib_Error x2
  | _, _ => e1 = e2
  end.
Proof.
  destruct e1 as [| |c1 x1], e2 as [| |c2 x2]; simpl; try done;
    unfold contexts; intros H1 H2;
    try (which_event H1); try (which_event H2); simpl;
    try discriminate; by intros [=].
Qed.

(** ** Further properties of the marshaling *)

(** X1: in the marshaled nameservers the family and the length of the
    address agree, whatever the servers are: AF_INET with four bytes or
    AF_INET6 with sixteen; the zero address too goes out as AF_INET6 with
    sixteen bytes. *)
Theorem linkNameservers_family_length (servers : list IP) :
  Forall (λ ns,
            Family ns = AF_INET ∧ length (Address ns) = 4%nat ∨
            Family ns = AF_INET6 ∧ length (Address ns) = 16%nat)
    (linkNameservers servers).
Proof.
  rewrite linkNameservers_fmap. apply Forall_fmap, Forall_forall.
  intros ip _. unfold nameserver_of. simpl.
  destruct (Is4 ip); simpl.
  - left. split; [done|]. by rewrite length_drop, As16_length.
  - right. split; [done | apply As16_length].
Qed.

(** X2: at the place of an IPv4 server the marshaled address is the four
    bytes of that server: cutting the sixteen-byte form at 12 undoes the
    mapping into IPv6. *)
Theorem linkNameservers_v4_bytes (servers : list IP) (i : nat) (a : array 4) :
  servers !! i = Some (v4Addr a) →
  linkNameservers servers !! i =
    Some {| Family := AF_INET; Address := elems a |}.
Proof.
  intros Hi. by rewrite linkNameservers_fmap, list_lookup_fmap, Hi.
Qed.

(** X3: the zone of an IPv6 server is not marshaled: servers that differ
    in their zones only give the same nameservers. *)
Theorem linkNameservers_zone_dropped (servers : list IP) :
  linkNameservers (without_zone <$> servers) = linkNameservers servers.
Proof.
  rewrite !linkNameservers_fmap, <- list_fmap_compose.
  apply list_fmap_ext. intros i ip _. by destruct ip.
Qed.

(** X4: marshaling goes through concatenation, for the servers and for
    the domains: the entries of a list put after another are the entries
    of the one followed by the entries of the other. *)
Theorem marshal_app (servers servers' : list IP) (domains domains' : list string) :
  linkNameservers (servers ++ servers') =
    linkNameservers servers ++ linkNameservers servers' ∧
  linkDomains (domains ++ domains') =
    linkDomains domains ++ linkDomains domains'.
Proof.
  rewrite !linkNameservers_fmap, !linkDomains_fmap.
  split; apply fmap_app.
Qed.

(** X5: servers that are IPv4 addresses or IPv6 addresses without zone
    are marshaled one to one: two such lists with the same nameservers
    are the same list. *)
Theorem linkNameservers_inj (servers servers' : list IP) :
  Forall (λ ip, plain ip = true) servers →
  Forall (λ ip, plain ip = true) servers' →
  linkNameservers servers = linkNameservers servers' →
  servers = servers'.
Proof.
  rewrite !linkNameservers_fmap.
  intros Hplain. revert servers'.
  induction Hplain as [|ip servers Hip _ IH];
    intros servers' Hplain' Heq; destruct Hplain' as [|ip' servers' Hip' Hrest];
    try discriminate Heq; [done|].
  injection Heq as Hhead Htail. f_equal.
  - by apply nameserver_of_inj.
  - by apply IH.
Qed.

(** ** Further properties of the configurator *)

(** X6: the requests of [systemdUpDNS] are an initial part of: read the
    link, connect to the bus, resolve the interface, SetLinkDNS,
    SetLinkDomains; those of [systemdDownDNS] an initial part of: read
    the link, connect to the bus, resolve the interface, RevertLink.  So
    no request is made twice or out of this order, [systemdUpDNS] never
    reverts, and the read of the link is always made. *)
Theorem requests_in_order {W : Type} (E : Env W) (w : W)
    (servers : list IP) (domains : list string) :
  let up := run E (systemdUpDNS servers domains) w in
  let down := run E systemdDownDNS w in
  step_of <$> trace up `prefix_of` up_steps ∧
  step_of <$> trace down `prefix_of` down_steps ∧
  head (step_of <$> trace up) = Some (AtReadlink "/etc/resolv.conf") ∧
  head (step_of <$> trace down) = Some (AtReadlink "/etc/resolv.conf").
Proof.
  unfold systemdUpDNS, systemdDownDNS, systemdIsActive; cbn.
  repeat next_answer;
    (split_and!; [by eexists | by eexists | done | done]).
Qed.

(** X7: whenever [systemdUpDNS] or [systemdDownDNS] issues a remote
    call, the detector reported active in this run, and the call goes
    with flags 0 and the one-second context to the object
    /org/freedesktop/resolve1 of org.freedesktop.resolve1 on the
    connection that this run got from the bus, with the index of the
    interface that this run resolved as its first argument. *)
Theorem remote_call_provenance {W : Type} (E : Env W) (w : W)
    (servers : list IP) (domains : list string)
    (p : prog (option error)) (c : event) :
  p = systemdUpDNS servers domains ∨ p = systemdDownDNS →
  let o := run E p w in
  c ∈ calls (trace o) →
  result (run E systemdIsActive w) = true ∧
  ∃ conn ip iface,
    EvSystemBus (conn, None) ∈ trace o ∧
    EvTailscale (ip, Some iface, None) ∈ trace o ∧
    call_obj c =
      Some (Object conn "org.freedesktop.resolve1"
              "/org/freedesktop/resolve1") ∧
    call_flags c = Some 0 ∧
    call_ctx c = Some (WithTimeout Background systemdSetTimeout) ∧
    head (call_args c) = Some (ArgInt (Index iface)).
Proof.
  intros Hp. cbn zeta. rewrite run_systemdIsActive.
  destruct Hp as [-> | ->];
    unfold systemdUpDNS, systemdDownDNS, systemdIsActive; cbn;
    repeat next_answer; intros Hin; which_event Hin;
    (split; [done|]; eexists _, _, _; split_and!; try done;
     repeat first [apply list_elem_of_here | apply list_elem_of_further]).
Qed.

(** X8: in [systemdUpDNS] and in [systemdDownDNS] a request that reports
    an error is the last request of the run, and the run returns an
    error: nothing is asked of the outside world after a failure. *)
Theorem nothing_after_a_failure {W : Type} (E : Env W) (w : W)
    (servers : list IP) (domains : list string)
    (p : prog (option error)) (i : nat) (e : event) :
  p = systemdUpDNS servers domains ∨ p = systemdDownDNS →
  let o := run E p w in
  trace o !! i = Some e →
  is_Some (ev_err e) →
  S i = length (trace o) ∧ is_Some (result o).
Proof.
  intros [-> | ->];
    unfold systemdUpDNS, systemdDownDNS, systemdIsActive; cbn;
    repeat next_answer; intros Hi [cause Hcause];
    repeat (destruct i as [|i]; simplify_eq/=); by split.
Qed.

(** X9: what [systemdUpDNS] returns tells how far it went.  Nil: the link
    was a stub, the bus and the interface were there, and both remote
    calls were issued and reported no error.  An error under
    SetLinkDomains: SetLinkDNS was issued and reported no error, so the
    nameservers stay set, and nothing is issued after the failed
    SetLinkDomains.  An error under SetLinkDNS: that call alone was
    issued.  Any other error: no remote call was issued. *)
Theorem systemdUpDNS_result_tells {W : Type} (E : Env W) (w : W)
    (servers : list IP) (domains : list string) :
  let o := run E (systemdUpDNS servers domains) w in
  let link := env_readlink E "/etc/resolv.conf" w in
  match result o with
  | None =>
      result (run E systemdIsActive w) = true ∧
      ∃ conn ip iface,
        trace o =
          [EvReadlink "/etc/resolv.conf" link; EvSystemBus (conn, None);
           EvTailscale (ip, Some iface, None);
           SetLinkDNS_event conn iface servers None;
           SetLinkDomains_event conn iface domains None]
  | Some (Errorf "SetLinkDomains" cause) =>
      ∃ conn iface,
        calls (trace o) =
          [SetLinkDNS_event conn iface servers None;
           SetLinkDomains_event conn iface domains (Some cause)]
  | Some (Errorf "SetLinkDNS" cause) =>
      ∃ conn iface,
        calls (trace o) = [SetLinkDNS_event conn iface servers (Some cause)]
  | Some _ => calls (trace o) = []
  end.
Proof.
  cbn zeta. rewrite run_systemdIsActive.
  unfold systemdUpDNS, systemdIsActive; cbn.
  repeat next_answer; try done; try by eexists _, _.
  split; [done|]. by eexists _, _, _.
Qed.

(** X10: two errors that [systemdUpDNS] or [systemdDownDNS] return, in
    whatever runs, have the same message only if they are the same
    package-level error or wrap causes of the same message under the same
    context: the message alone tells the step that failed. *)
Theorem messages_tell_the_step {W W' : Type} (E : Env W) (E' : Env W')
    (w : W) (w' : W') (servers servers' : list IP)
    (domains domains' : list string)
    (p p' : prog (option error)) (e e' : error) :
  p = systemdUpDNS servers domains ∨ p = systemdDownDNS →
  p' = systemdUpDNS servers' domains' ∨ p' = systemdDownDNS →
  result (run E p w) = Some e →
  result (run E' p' w') = Some e' →
  Error e = Error e' →
  match e, e' with
  | Errorf c x, Errorf c' x' => c = c' ∧ lib_Error x = lib_Error x'
  | _, _ => e = e'
  end.
Proof.
  intros Hp Hp' He He'. apply messages_apart.
  - exact (returned_from_this_file E w servers domains p e Hp He).
  - exact (returned_from_this_file E' w' servers' domains' p' e' Hp' He').
Qed.

(** X11: when [systemdUpDNS] or [systemdDownDNS] returns a wrapped
    error, the cause inside is the error that the last request of the run
    reported: the error of the library is handed on, not replaced. *)
Theorem cause_is_last_error {W : Type} (E : Env W) (w : W)
    (servers : list IP) (domains : list string)
    (p : prog (option error)) (err : error) (cause : lib_error) :
  p = systemdUpDNS servers domains ∨ p = systemdDownDNS →
  let o := run E p w in
  result o = Some err →
  Unwrap err = Some cause →
  ev_err <$> last (trace o) = Some (Some cause).
Proof.
  intros [-> | ->];
    unfold systemdUpDNS, systemdDownDNS, systemdIsActive; cbn;
    repeat next_answer; intros Hres Hcause; by simplify_eq/=.
Qed.

(** ** The further statements at work on the example hosts *)

Lemma linkNameservers_v4_bytes_witness :
  two_servers !! 0%nat = Some ip_1_1_1_1 ∧
  linkNameservers two_servers !! 0%nat =
    Some {| Family := AF_INET; Address := [x01; x01; x01; x01] |}.
Proof.
  split; [reflexivity|].
  exact (linkNameservers_v4_bytes two_servers 0%nat
           (Array 4 [x01; x01; x01; x01] eq_refl) eq_refl).
Defined.

Lemma linkNameservers_inj_witness :
  Forall (λ ip, plain ip = true) two_servers ∧
  linkNameservers two_servers =
    linkNameservers [ip_1_1_1_1; ip_2606_4700_4700__1111] ∧
  two_servers = [ip_1_1_1_1; ip_2606_4700_4700__1111].
Proof.
  assert (Hplain : Forall (λ ip, plain ip = true) two_servers).
  { repeat constructor. }
  split; [exact Hplain|]. split; [reflexivity|].
  exact (linkNameservers_inj two_servers
           [ip_1_1_1_1; ip_2606_4700_4700__1111] Hplain Hplain eq_refl).
Defined.

Lemma remote_call_provenance_witness :
  RevertLink_event {| conn_id := 1 |} tailscale0 None
    ∈ calls (trace (run working_host systemdDownDNS 0%nat)) ∧
  result (run working_host systemdIsActive 0%nat) = true ∧
  ∃ conn ip iface,
    EvSystemBus (conn, None) ∈ trace (run working_host systemdDownDNS 0%nat) ∧
    EvTailscale (ip, Some iface, None)
      ∈ trace (run working_host systemdDownDNS 0%nat) ∧
    call_obj (RevertLink_event {| conn_id := 1 |} tailscale0 None) =
      Some (Object conn "org.freedesktop.resolve1"
              "/org/freedesktop/resolve1") ∧
    call_flags (RevertLink_event {| conn_id := 1 |} tailscale0 None) =
      Some 0 ∧
    call_ctx (RevertLink_event {| conn_id := 1 |} tailscale0 None) =
      Some (WithTimeout Background systemdSetTimeout) ∧
    head (call_args (RevertLink_event {| conn_id := 1 |} tailscale0 None)) =
      Some (ArgInt (Index iface)).
Proof.
  assert (Hin : RevertLink_event {| conn_id := 1 |} tailscale0 None
    ∈ calls (trace (run working_host systemdDownDNS 0%nat))).
  { apply list_elem_of_here. }
  split; [exact Hin|].
  exact (remote_call_provenance working_host 0%nat [] [] systemdDownDNS _
           (or_intror eq_refl) Hin).
Defined.

Lemma nothing_after_a_failure_witness :
  trace (run busless_host systemdDownDNS 0%nat) !! 1%nat =
    Some (EvSystemBus
            ({| conn_id := 1 |}, Some (LibError "dial unix: no such file"))) ∧
  2%nat = length (trace (run busless_host systemdDownDNS 0%nat)) ∧
  is_Some (result (run busless_host systemdDownDNS 0%nat)).
Proof.
  split; [reflexivity|].
  exact (nothing_after_a_failure busless_host 0%nat [] [] systemdDownDNS
           1%nat _ (or_intror eq_refl) eq_refl
           (ex_intro _ (LibError "dial unix: no such file") eq_refl)).
Defined.

Lemma messages_tell_the_step_witness :
  result (run half_host (systemdUpDNS two_servers one_domain) 0%nat) =
    Some (Errorf "SetLinkDomains" (LibError "Invalid search domain")) ∧
  "SetLinkDomains" = "SetLinkDomains" ∧
  lib_Error (LibError "Invalid search domain") =
    lib_Error (LibError "Invalid search domain").
Proof.
  split; [reflexivity|].
  exact (messages_tell_the_step half_host half_host 0%nat 0%nat
           two_servers [] one_domain [] _ _ _ _
           (or_introl eq_refl) (or_introl eq_refl) eq_refl eq_refl eq_refl).
Defined.

Lemma cause_is_last_error_witness :
  result (run half_host (systemdUpDNS two_servers one_domain) 0%nat) =
    Some (Errorf "SetLinkDomains" (LibError "Invalid search domain")) ∧
  ev_err <$>
    last (trace (run half_host (systemdUpDNS two_servers one_domain) 0%nat)) =
    Some (Some (LibError "Invalid search domain")).
Proof.
  split; [reflexivity|].
  exact (cause_is_last_error half_host 0%nat two_servers one_domain _ _ _
           (or_introl eq_refl) eq_refl eq_refl).
Defined.
